(** * FAIZAN FILE STORE: the file registry view-model, the codec and the admin gate

    A shallow embedding of [src/App.jsx].  The React component is modelled as
    a state record (one field per [useState] hook), a writer/state monad for
    the handlers, and an event type for everything the environment can deliver
    to the component: DOM events, FileReader completion, settled promises of
    the registry client, snapshot callbacks and timers. *)

From Stdlib Require Import ZArith NArith Ascii String Lia.
From Stdlib.Strings Require Import Byte.
From stdpp Require Import list strings sorting.

Local Open Scope string_scope.

(** ** The codec

    The source holds only the calls of the codec: [reader.readAsDataURL(file)]
    at upload and [link.href = file.data] at download.  Encoder and decoder
    are the browser's, and are written out here as the standards define them:
    RFC 4648 base64 inside an RFC 2397 [data:] URL, read back by the [data:]
    URL processor with its "forgiving-base64 decode". *)
Module Codec.

Definition alphabet : string :=
  "ABCDEFGHIJKLMNOPQRSTUVWXYZabcdefghijklmnopqrstuvwxyz0123456789+/".

Definition pad : ascii := "="%char.

(** The character at position [n] of the base64 alphabet. *)
Definition sextet_char (n : N) : ascii :=
  match String.get (N.to_nat n) alphabet with
  | Some c => c
  | None => pad
  end.

(** The position of [c] in the base64 alphabet, if it is in it. *)
Definition char_sextet (c : ascii) : option N :=
  let n := N_of_ascii c in
  if (65 <=? n)%N && (n <=? 90)%N then Some (n - 65)%N
  else if (97 <=? n)%N && (n <=? 122)%N then Some (n - 71)%N
  else if (48 <=? n)%N && (n <=? 57)%N then Some (n + 4)%N
  else if (n =? 43)%N then Some 62%N
  else if (n =? 47)%N then Some 63%N
  else None.

(** Three 8-bit groups are read as one 24-bit group and cut into four 6-bit
    groups; a final group of one or two bytes is filled with zero bits up to
    a whole number of 6-bit groups. *)
Fixpoint sextets (bs : list byte) : list N :=
  match bs with
  | [] => []
  | [a] =>
      let n := (Byte.to_N a * 16)%N in
      [(n / 64)%N; (n mod 64)%N]
  | [a; b] =>
      let n := ((Byte.to_N a * 256 + Byte.to_N b) * 4)%N in
      [(n / 4096)%N; ((n / 64) mod 64)%N; (n mod 64)%N]
  | a :: b :: c :: rest =>
      let n := (Byte.to_N a * 65536 + Byte.to_N b * 256 + Byte.to_N c)%N in
      (n / 262144)%N :: ((n / 4096) mod 64)%N :: ((n / 64) mod 64)%N
        :: (n mod 64)%N :: sextets rest
  end.

Definition padding (len : nat) : list ascii :=
  match (len mod 3)%nat with
  | 1%nat => [pad; pad]
  | 2%nat => [pad]
  | _ => []
  end.

(** The characters written before the padding. *)
Definition chars (bs : list byte) : list ascii := map sextet_char (sextets bs).

(** Modelled from the spec: the base64 text of [Encode], which the browser
    computes and the source does not hold; alphabet characters, then [=] up to
    a multiple of four. *)
Definition base64_encode (bs : list byte) : string :=
  string_of_list_ascii (chars bs ++ padding (length bs)).

Definition byte_of_N (n : N) : byte :=
  match Byte.of_N n with
  | Some b => b
  | None => x00
  end.

(** Four 6-bit groups give back three bytes; of a final group of two (three)
    characters the last four (two) bits are dropped. *)
Fixpoint sextets_bytes (ss : list N) : list byte :=
  match ss with
  | s0 :: s1 :: s2 :: s3 :: rest =>
      let n := (((s0 * 64 + s1) * 64 + s2) * 64 + s3)%N in
      byte_of_N (n / 65536) :: byte_of_N ((n / 256) mod 256)
        :: byte_of_N (n mod 256) :: sextets_bytes rest
  | [s0; s1; s2] =>
      let n := (((s0 * 64 + s1) * 64 + s2) / 4)%N in
      [byte_of_N (n / 256); byte_of_N (n mod 256)]
  | [s0; s1] =>
      let n := ((s0 * 64 + s1) / 16)%N in
      [byte_of_N n]
  | _ => []
  end.

(** Tab, line feed, form feed, carriage return and space. *)
Definition is_ascii_whitespace (c : ascii) : bool :=
  let n := N_of_ascii c in
  (n =? 9)%N || (n =? 10)%N || (n =? 12)%N || (n =? 13)%N || (n =? 32)%N.

Definition is_pad (c : ascii) : bool := Ascii.eqb c pad.

(** When the length is a multiple of four, one or two trailing [=] are
    removed. *)
Definition strip_padding (l : list ascii) : list ascii :=
  if (length l mod 4 =? 0)%nat then
    match rev l with
    | p1 :: p2 :: r =>
        if is_pad p1 then if is_pad p2 then rev r else rev (p2 :: r) else l
    | [p1] => if is_pad p1 then [] else l
    | [] => l
    end
  else l.

Fixpoint all_sextets (l : list ascii) : option (list N) :=
  match l with
  | [] => Some []
  | c :: l' =>
      match char_sextet c, all_sextets l' with
      | Some n, Some ns => Some (n :: ns)
      | _, _ => None
      end
  end.

(** Modelled from the spec: the base64 half of [Decode], which the browser
    computes and the source does not hold.  White space is dropped, the
    padding removed, a length of 1 modulo 4 or a character outside the
    alphabet is a failure. *)
Definition forgiving_base64_decode (s : string) : option (list byte) :=
  let l := List.filter (fun c => negb (is_ascii_whitespace c)) (list_ascii_of_string s) in
  let l := strip_padding l in
  if (length l mod 4 =? 1)%nat then None
  else option_map sextets_bytes (all_sextets l).

(** *** [data:] URLs *)

Definition comma : ascii := ","%char.
Definition percent : ascii := "%"%char.
Definition space : ascii := " "%char.
Definition semicolon : ascii := ";"%char.

Fixpoint strip_prefix (p l : list ascii) : option (list ascii) :=
  match p, l with
  | [], _ => Some l
  | a :: p', b :: l' => if Ascii.eqb a b then strip_prefix p' l' else None
  | _ :: _, [] => None
  end.

(** The part before the first [,] and the part after it. *)
Fixpoint split_comma (l : list ascii) : option (list ascii * list ascii) :=
  match l with
  | [] => None
  | c :: l' =>
      if Ascii.eqb c comma then Some ([], l')
      else match split_comma l' with
           | Some (h, b) => Some (c :: h, b)
           | None => None
           end
  end.

Definition hex_digit (c : ascii) : option N :=
  let n := N_of_ascii c in
  if (48 <=? n)%N && (n <=? 57)%N then Some (n - 48)%N
  else if (65 <=? n)%N && (n <=? 70)%N then Some (n - 55)%N
  else if (97 <=? n)%N && (n <=? 102)%N then Some (n - 87)%N
  else None.

Fixpoint percent_decode (l : list ascii) : list ascii :=
  match l with
  | [] => []
  | c :: l' =>
      if Ascii.eqb c percent then
        match l' with
        | h :: lo :: rest =>
            match hex_digit h, hex_digit lo with
            | Some x, Some y => ascii_of_N (x * 16 + y) :: percent_decode rest
            | _, _ => c :: percent_decode l'
            end
        | _ => c :: percent_decode l'
        end
      else c :: percent_decode l'
  end.

Definition ascii_lower (c : ascii) : ascii :=
  let n := N_of_ascii c in
  if (65 <=? n)%N && (n <=? 90)%N then ascii_of_N (n + 32) else c.

Fixpoint drop_spaces (l : list ascii) : list ascii :=
  match l with
  | c :: l' => if Ascii.eqb c space then drop_spaces l' else l
  | [] => []
  end.

(** Whether the part before the comma ends with [;], any number of spaces and
    [base64] in any case, trailing spaces aside.  The argument is read from
    its end. *)
Definition base64_marker (header : list ascii) : bool :=
  match drop_spaces (rev header) with
  | c4 :: c6 :: e :: s :: a :: b :: r =>
      String.eqb (string_of_list_ascii (map ascii_lower [b; a; s; e; c6; c4])) "base64"
      && match drop_spaces r with
         | c :: _ => Ascii.eqb c semicolon
         | [] => false
         end
  | _ => false
  end.

(** Modelled from the spec: [Decode], what the browser saves when the clicked
    link's [href] is a [data:] URL (not in the source): the part after the
    first comma, percent-decoded, then base64-decoded when the part before it
    says so.  [None] when the text is no [data:] URL or its base64 body is
    malformed. *)
Definition data_url_decode (url : string) : option (list byte) :=
  match strip_prefix (list_ascii_of_string "data:") (list_ascii_of_string url) with
  | None => None
  | Some rest =>
      match split_comma rest with
      | None => None
      | Some (header, body) =>
          let body := percent_decode body in
          if base64_marker header
          then forgiving_base64_decode (string_of_list_ascii body)
          else Some (map byte_of_ascii body)
      end
  end.

(** Modelled from the spec: [Encode], the result of
    [FileReader.readAsDataURL] (not in the source): the file's type and the
    base64 of its bytes packaged as a [data:] URL. *)
Definition readAsDataURL (type : string) (bs : list byte) : string :=
  "data:" +:+ type +:+ ";base64," +:+ base64_encode bs.

(** A media type as a browser reports it for a selected file has no comma. *)
Definition comma_free (type : string) : bool :=
  forallb (fun c => negb (Ascii.eqb c comma)) (list_ascii_of_string type).

End Codec.

(** ** Data model *)

Module File.
(** A DOM [File] as the upload handler reads it: [file.name], [file.type],
    [file.size], and the bytes the reader reads from it. *)
Record t := mk { name : string; type : string; bytes : list byte }.

Definition size (f : t) : Z := Z.of_nat (length (bytes f)).
End File.

(** What a write may put in the [createdAt] field: the sentinel returned by
    [serverTimestamp()] or a time of the client's own. *)
Inductive FieldValue := serverTimestamp | Timestamp (t : Z).

Module Fields.
(** The fields of a document of the [files] collection; [T] is the type of
    [createdAt]: [FieldValue] in a write, a time in a stored document. *)
Record t (T : Type) :=
  mk { name : string; type : string; size : Z; data : string; createdAt : T }.
Arguments mk {T}.
Arguments name {T}.
Arguments type {T}.
Arguments size {T}.
Arguments data {T}.
Arguments createdAt {T}.
End Fields.

Module Doc.
(** A document of a snapshot: [doc.id] and [doc.data()]. *)
Record t := mk { id : string; data : Fields.t Z }.
End Doc.

Module FileRecord.
(** An element of the [files] state: [{ id: doc.id, ...doc.data() }]. *)
Record t :=
  mk { id : string; name : string; type : string; size : Z; data : string;
       createdAt : Z }.
End FileRecord.

Module Toast.
Record t := mk { message : string; type : string }.
End Toast.

Inductive direction := asc | desc.

Record Query :=
  { collectionPath : list string; orderByField : string; orderByDirection : direction }.

Definition collection (segments : list string) : list string := segments.
Definition doc (segments : list string) : list string := segments.
Definition orderBy (field : string) (d : direction) : string * direction := (field, d).
Definition query (path : list string) (o : string * direction) : Query :=
  {| collectionPath := path; orderByField := o.1; orderByDirection := o.2 |}.

(** ** Component state: one field per [useState] hook *)

Record State :=
  { user : option string;
    files : list FileRecord.t;
    isAdmin : bool;
    showLoginModal : bool;
    pinInput : string;
    uploading : bool;
    toast : option Toast.t }.

(** [useState] initial values. *)
Definition initial : State :=
  {| user := None; files := []; isAdmin := false; showLoginModal := false;
     pinInput := ""; uploading := false; toast := None |}.

(** Calls that leave the component. *)
Inductive effect :=
| SignInWithCustomToken (token : string)
| SignInAnonymously
| OnAuthStateChanged
| UnsubscribeAuth
| OnSnapshot (q : Query)
| Unsubscribe
| ConsoleError (label : string)
| SetTimeout (ms : Z)
| PreventDefault
| ReadAsDataURL (file : File.t)
| AddDoc (path : list string) (data : Fields.t FieldValue)
| DeleteDoc (path : list string)
| WindowConfirm (message : string)
| ClearFileInput
| LinkClick (href download : string).

(** ** Handlers as state transformers that log their calls *)

Definition M (A : Type) : Type := State -> A * State * list effect.

Global Instance M_ret : MRet M := fun A a s => (a, s, []).

Global Instance M_bind : MBind M := fun A B k m s =>
  let '(a, s1, t1) := m s in
  let '(b, s2, t2) := k a s1 in
  (b, s2, (t1 ++ t2)%list).

Definition get : M State := fun s => (s, s, []).
Definition call (e : effect) : M unit := fun s => (tt, s, [e]).
Definition when (b : bool) (m : M unit) : M unit := if b then m else mret tt.

Definition exec (m : M unit) (s : State) : State := (m s).1.2.
Definition calls (m : M unit) (s : State) : list effect := (m s).2.

Definition setUser (v : option string) : M unit := fun s =>
  (tt, {| user := v; files := files s; isAdmin := isAdmin s;
          showLoginModal := showLoginModal s; pinInput := pinInput s;
          uploading := uploading s; toast := toast s |}, []).
Definition setFiles (v : list FileRecord.t) : M unit := fun s =>
  (tt, {| user := user s; files := v; isAdmin := isAdmin s;
          showLoginModal := showLoginModal s; pinInput := pinInput s;
          uploading := uploading s; toast := toast s |}, []).
Definition setIsAdmin (v : bool) : M unit := fun s =>
  (tt, {| user := user s; files := files s; isAdmin := v;
          showLoginModal := showLoginModal s; pinInput := pinInput s;
          uploading := uploading s; toast := toast s |}, []).
Definition setShowLoginModal (v : bool) : M unit := fun s =>
  (tt, {| user := user s; files := files s; isAdmin := isAdmin s;
          showLoginModal := v; pinInput := pinInput s;
          uploading := uploading s; toast := toast s |}, []).
Definition setPinInput (v : string) : M unit := fun s =>
  (tt, {| user := user s; files := files s; isAdmin := isAdmin s;
          showLoginModal := showLoginModal s; pinInput := v;
          uploading := uploading s; toast := toast s |}, []).
Definition setUploading (v : bool) : M unit := fun s =>
  (tt, {| user := user s; files := files s; isAdmin := isAdmin s;
          showLoginModal := showLoginModal s; pinInput := pinInput s;
          uploading := v; toast := toast s |}, []).
Definition setToast (v : option Toast.t) : M unit := fun s =>
  (tt, {| user := user s; files := files s; isAdmin := isAdmin s;
          showLoginModal := showLoginModal s; pinInput := pinInput s;
          uploading := uploading s; toast := v |}, []).

Definition ADMIN_PIN : string := "432272".

(** [showToast(message, type = "success")]; the timer's callback is the
    [ToastTimeout] event below. *)
Definition showToast (message type : string) : M unit :=
  setToast (Some (Toast.mk message type)) ;;
  call (SetTimeout 3000).

Definition handleAdminLogin : M unit :=
  call PreventDefault ;;
  s ← get ;
  if String.eqb (pinInput s) ADMIN_PIN then
    setIsAdmin true ;;
    setShowLoginModal false ;;
    setPinInput "" ;;
    showToast "Welcome Admin! Access Granted." "success"
  else
    showToast "Incorrect PIN. Access Denied." "error".

Definition handleLogout : M unit :=
  setIsAdmin false ;;
  showToast "Logged out of Admin Panel" "success".

Definition handleDownload (file : FileRecord.t) : M unit :=
  call (LinkClick (FileRecord.data file) (FileRecord.name file)) ;;
  showToast ("Downloading " +:+ FileRecord.name file +:+ "...") "success".

(** The snapshot callbacks of the data effect. *)
Definition fileRecord (d : Doc.t) : FileRecord.t :=
  {| FileRecord.id := Doc.id d;
     FileRecord.name := Fields.name (Doc.data d);
     FileRecord.type := Fields.type (Doc.data d);
     FileRecord.size := Fields.size (Doc.data d);
     FileRecord.data := Fields.data (Doc.data d);
     FileRecord.createdAt := Fields.createdAt (Doc.data d) |}.

Definition onSnapshot_next (docs : list Doc.t) : M unit :=
  let filesData := map fileRecord docs in
  setFiles filesData.

Definition onSnapshot_error : M unit :=
  call (ConsoleError "Error fetching files:") ;;
  showToast "Error loading files" "error".

Section App.

(** The globals the page is served with; [None] is [undefined]. *)
Variable __app_id : option string.
Variable __initial_auth_token : option string.

Definition appId : string :=
  match __app_id with
  | Some a => a
  | None => "default-app-id"
  end.

Definition filesPath : list string := ["artifacts"; appId; "public"; "data"; "files"].

(** The first effect: [initAuth()] and the auth listener. *)
Definition initAuth : M unit :=
  match __initial_auth_token with
  | Some token =>
      if String.eqb token "" then call SignInAnonymously
      else call (SignInWithCustomToken token)
  | None => call SignInAnonymously
  end.

Definition authSetup : M unit :=
  initAuth ;;
  call OnAuthStateChanged.

(** The second effect, run for the current [user]. *)
Definition q : Query := query (collection filesPath) (orderBy "createdAt" desc).

Definition dataFetching (user : option string) : M unit :=
  match user with
  | None => mret tt
  | Some _ => call (OnSnapshot q)
  end.

(** Its cleanup: the effect returned one only when it subscribed. *)
Definition dataFetching_cleanup (user : option string) : M unit :=
  match user with
  | None => mret tt
  | Some _ => call Unsubscribe
  end.

(** [handleFileUpload], up to [reader.readAsDataURL(file)];
    [e_target_files] is [e.target.files]. *)
Definition handleFileUpload (e_target_files : list File.t) : M unit :=
  match head e_target_files with
  | None => mret tt
  | Some file =>
      if (700000 <? File.size file)%Z then
        showToast "File too large! Max 700KB for this demo." "error"
      else
        setUploading true ;;
        call (ReadAsDataURL file)
  end.

(** [reader.onload], up to the [await]; [result] is [event.target.result]. *)
Definition reader_onload (file : File.t) (result : string) : M unit :=
  let base64String := result in
  call (AddDoc (collection filesPath)
          {| Fields.name := File.name file;
             Fields.type := File.type file;
             Fields.size := File.size file;
             Fields.data := base64String;
             Fields.createdAt := serverTimestamp |}).

(** The rest of [reader.onload] once [addDoc] has settled: the [try] body
    or the [catch] block, then [finally].  [fileInputRef.current] is the
    input of the admin section, rendered when [isAdmin]. *)
Definition reader_onload_settled (fulfilled : bool) : M unit :=
  (if fulfilled then
     showToast "File uploaded successfully!" "success" ;;
     s ← get ;
     when (isAdmin s) (call ClearFileInput)
   else
     call (ConsoleError "Upload error") ;;
     showToast "Upload failed." "error") ;;
  setUploading false.

(** [handleDelete], up to the [await]; [confirmed] is what
    [window.confirm] returned. *)
Definition handleDelete (fileId : string) (confirmed : bool) : M unit :=
  call (WindowConfirm "Are you sure you want to delete this file?") ;;
  if negb confirmed then mret tt
  else call (DeleteDoc (doc (filesPath ++ [fileId]))).

(** The rest of [handleDelete] once [deleteDoc] has settled. *)
Definition handleDelete_settled (fulfilled : bool) : M unit :=
  if fulfilled then showToast "File removed." "success"
  else showToast "Could not delete file." "error".

(** Everything that can run code of the component. *)
Inductive event :=
| Mounted
| AuthStateChanged (currentUser : option string)
| SnapshotNext (docs : list Doc.t)
| SnapshotError
| ToastTimeout
| HeaderButtonClick
| ModalCloseClick
| PinInputChange (value : string)
| LoginSubmit
| FileInputChange (e_target_files : list File.t)
| ReaderLoad (file : File.t) (result : string)
| AddDocSettled (fulfilled : bool)
| DeleteClick (fileId : string) (confirmed : bool)
| DeleteDocSettled (fulfilled : bool)
| DownloadClick (file : FileRecord.t).

Definition step (e : event) : M unit :=
  match e with
  | Mounted => authSetup
  | AuthStateChanged currentUser =>
      s ← get ;
      setUser currentUser ;;
      if decide (user s = currentUser) then mret tt
      else dataFetching_cleanup (user s) ;; dataFetching currentUser
  | SnapshotNext docs => onSnapshot_next docs
  | SnapshotError => onSnapshot_error
  | ToastTimeout => setToast None
  | HeaderButtonClick =>
      s ← get ;
      if isAdmin s then handleLogout else setShowLoginModal true
  | ModalCloseClick => setShowLoginModal false ;; setPinInput ""
  | PinInputChange value => setPinInput value
  | LoginSubmit => handleAdminLogin
  | FileInputChange e_target_files => handleFileUpload e_target_files
  | ReaderLoad file result => reader_onload file result
  | AddDocSettled fulfilled => reader_onload_settled fulfilled
  | DeleteClick fileId confirmed => handleDelete fileId confirmed
  | DeleteDocSettled fulfilled => handleDelete_settled fulfilled
  | DownloadClick file => handleDownload file
  end.

(** A run of the component over a sequence of events, with the calls made. *)
Fixpoint run (es : list event) : M unit :=
  match es with
  | [] => mret tt
  | e :: es' => step e ;; run es'
  end.

End App.

(** The result [FileReader] delivers to [onload] for [readAsDataURL(file)]. *)
Definition reader_result (file : File.t) : string :=
  Codec.readAsDataURL (File.type file) (File.bytes file).

(** The bytes the browser saves for a clicked link. *)
Definition downloaded (e : effect) : option (list byte) :=
  match e with
  | LinkClick href _ => Codec.data_url_decode href
  | _ => None
  end.

(** ** The remote registry

    The document database behind [firebase/firestore] is an external
    collaborator; the source only holds its client calls. *)
Module Registry.

(** Modelled from the spec: the record set of the remote registry, which is
    not part of the source.  The records are kept in the order they were
    created in. *)
Definition t : Type := list Doc.t.

Definition created (d : Doc.t) : Z := Fields.createdAt (Doc.data d).

(** Modelled from the spec: the create operation of the remote registry
    (absent from the source), "accepting a record payload and assigning a
    generated id and server timestamp": [id] is the generated id and [now]
    the server's time, which replaces the [serverTimestamp()] sentinel. *)
Definition resolve (now : Z) (v : FieldValue) : Z :=
  match v with
  | serverTimestamp => now
  | Timestamp t => t
  end.

Definition stored (id : string) (now : Z) (w : Fields.t FieldValue) : Doc.t :=
  {| Doc.id := id;
     Doc.data := {| Fields.name := Fields.name w;
                    Fields.type := Fields.type w;
                    Fields.size := Fields.size w;
                    Fields.data := Fields.data w;
                    Fields.createdAt := resolve now (Fields.createdAt w) |} |}.

Definition addDoc (id : string) (now : Z) (w : Fields.t FieldValue) (r : t) : t :=
  (r ++ [stored id now w])%list.

(** Modelled from the spec: the delete operation by id of the remote
    registry (absent from the source). *)
Definition deleteDoc (id : string) (r : t) : t :=
  List.filter (fun d => negb (String.eqb (Doc.id d) id)) r.

(** Modelled from the spec: the live query of the remote registry (absent
    from the source): "a complete fresh ordered sequence", sorted by the
    timestamp field in the direction the query asks for. *)
Fixpoint insert_desc (d : Doc.t) (l : list Doc.t) : list Doc.t :=
  match l with
  | [] => [d]
  | x :: l' =>
      if (created x <=? created d)%Z then d :: l else x :: insert_desc d l'
  end.

Definition ordered_desc (r : t) : list Doc.t := foldr insert_desc [] r.

Definition snapshot (q : Query) (r : t) : list Doc.t :=
  match orderByDirection q with
  | desc => ordered_desc r
  | asc => rev (ordered_desc r)
  end.

End Registry.

(** ** Predicates used in the statements *)

(** Descending by [createdAt], for documents and for the cached records. *)
Definition newest_first : list Z -> Prop := StronglySorted (fun x y => (y <= x)%Z).

Definition is_snapshot (e : event) : bool :=
  match e with
  | SnapshotNext _ => true
  | _ => false
  end.

(** Calls that reach the remote registry or prepare a write to it. *)
Definition is_remote (e : effect) : bool :=
  match e with
  | ReadAsDataURL _ | AddDoc _ _ | DeleteDoc _ | OnSnapshot _ | Unsubscribe => true
  | _ => false
  end.

Inductive AdminSession := Guest | Admin.

Definition session (s : State) : AdminSession := if isAdmin s then Admin else Guest.

(** ** Sample inputs *)

Definition sample_file : File.t :=
  File.mk "a.txt" "text/plain" ["h"%byte; "e"%byte; "l"%byte; "l"%byte; "o"%byte].

Definition big_file : File.t :=
  File.mk "big.bin" "application/octet-stream" (repeat x00 (Z.to_nat 700001)).

Definition admin : State :=
  {| user := Some "u1"; files := []; isAdmin := true; showLoginModal := false;
     pinInput := ""; uploading := false; toast := None |}.

(** An admin looking at one cached record. *)
Definition sample_record : FileRecord.t :=
  FileRecord.mk "id1" "a.txt" "text/plain" 5 "data:text/plain;base64,aGVsbG8=" 10.

Definition listing : State :=
  {| user := Some "u1"; files := [sample_record]; isAdmin := true;
     showLoginModal := false; pinInput := ""; uploading := false; toast := None |}.

(** A guest with the login modal open and a PIN typed in. *)
Definition guest_typed (pin : string) : State :=
  {| user := Some "u1"; files := []; isAdmin := false; showLoginModal := true;
     pinInput := pin; uploading := false; toast := None |}.

(** ** The rendered page *)

Definition startsWith (s searchString : string) : bool := String.prefix searchString s.

Fixpoint includes (s searchString : string) : bool :=
  String.prefix searchString s
  || match s with
     | EmptyString => false
     | String _ s' => includes s' searchString
     end.

Module Icon.
(** The icon components [getFileIcon] chooses from. *)
Inductive t := ImageIcon | Video | Music | FileText | File.
End Icon.

Definition getFileIcon (type : string) : Icon.t :=
  if startsWith type "image/" then Icon.ImageIcon
  else if startsWith type "video/" then Icon.Video
  else if startsWith type "audio/" then Icon.Music
  else if includes type "pdf" then Icon.FileText
  else Icon.File.

(** [s.split(sep)] for a separator of one character: never an empty array. *)
Fixpoint split (sep : ascii) (s : string) : list string :=
  match s with
  | EmptyString => [EmptyString]
  | String c s' =>
      if Ascii.eqb c sep then EmptyString :: split sep s'
      else match split sep s' with
           | seg :: segs => String c seg :: segs
           | [] => [String c EmptyString]
           end
  end.

(** [toUpperCase] on the characters of a media type, which are ASCII: the
    letters [a] to [z] move to [A] to [Z]. *)
Definition ascii_upper (c : ascii) : ascii :=
  let n := N_of_ascii c in
  if (97 <=? n)%N && (n <=? 122)%N then ascii_of_N (n - 32) else c.

Fixpoint toUpperCase (s : string) : string :=
  match s with
  | EmptyString => EmptyString
  | String c s' => String (ascii_upper c) (toUpperCase s')
  end.

(** The badge of a file card: [file.type.split('/')[1]?.toUpperCase() || 'FILE']. *)
Definition typeLabel (type : string) : string :=
  match split "/"%char type !! 1%nat with
  | Some seg => if String.eqb (toUpperCase seg) "" then "FILE" else toUpperCase seg
  | None => "FILE"
  end.

Global Instance FileRecord_eq_dec : EqDecision FileRecord.t.
Proof. solve_decision. Defined.

(** Whether the page rendered for [s] holds, enabled, the control a DOM event
    comes from: the header button always; the form, its field and the close
    button inside [showLoginModal &&]; the file input inside [isAdmin &&] with
    [disabled={uploading}]; a delete button per cached file inside
    [isAdmin &&]; a download button per cached file.  The other events do
    not come from the page. *)
Definition rendered (s : State) (e : event) : bool :=
  match e with
  | HeaderButtonClick => true
  | ModalCloseClick | PinInputChange _ | LoginSubmit => showLoginModal s
  | FileInputChange _ => isAdmin s && negb (uploading s)
  | DeleteClick fileId _ =>
      isAdmin s && bool_decide (fileId ∈ map FileRecord.id (files s))
  | DownloadClick file => bool_decide (file ∈ files s)
  | _ => true
  end.

(** A run in which every event finds its control on the page. *)
Fixpoint rendered_run (app_id token : option string) (s : State) (es : list event) : bool :=
  match es with
  | [] => true
  | e :: es' =>
      rendered s e && rendered_run app_id token (exec (step app_id token e) s) es'
  end.

(** ** Observations on runs *)

(** The documents of the last snapshot delivered in a run, if there was one. *)
Fixpoint last_snapshot (es : list event) : option (list Doc.t) :=
  match es with
  | [] => None
  | e :: es' =>
      match last_snapshot es' with
      | Some docs => Some docs
      | None => match e with
                | SnapshotNext docs => Some docs
                | _ => None
                end
      end
  end.

Definition is_settled (e : event) : bool :=
  match e with
  | AddDocSettled _ => true
  | _ => false
  end.

Definition types_pin (e : event) : bool :=
  match e with
  | PinInputChange value => String.eqb value ADMIN_PIN
  | _ => false
  end.

(** Calls that start a change of the registry: the read of a file to upload
    and the delete of a document. *)
Definition starts_mutation (c : effect) : bool :=
  match c with
  | ReadAsDataURL _ | DeleteDoc _ => true
  | _ => false
  end.

Definition is_timer (c : effect) : bool :=
  match c with
  | SetTimeout _ => true
  | _ => false
  end.

(** Listeners opened minus listeners closed. *)
Fixpoint subscriptions (cs : list effect) : Z :=
  match cs with
  | [] => 0
  | OnSnapshot _ :: cs' => subscriptions cs' + 1
  | Unsubscribe :: cs' => subscriptions cs' - 1
  | _ :: cs' => subscriptions cs'
  end.

Definition signed_in (s : State) : Z :=
  match user s with
  | Some _ => 1
  | None => 0
  end.

(** ** Proof automation *)

Ltac divlia := zify; Z.to_euclidean_division_equations; lia.

Ltac handler :=
  unfold exec, calls, step, run, handleAdminLogin, handleLogout,
    handleDownload, onSnapshot_next, onSnapshot_error, authSetup, initAuth,
    dataFetching, dataFetching_cleanup, handleFileUpload, reader_onload,
    reader_onload_settled, handleDelete, handleDelete_settled, showToast, when,
    setUser, setFiles, setIsAdmin, setShowLoginModal, setPinInput, setUploading,
    setToast, get, call, mbind, M_bind, mret, M_ret in *;
  cbn in *.

(** ** Sample runs *)

Example upload_sample :
  (handleFileUpload [sample_file] admin).2 = [ReadAsDataURL sample_file].
Proof. reflexivity. Qed.

Example onload_sample :
  calls (reader_onload None sample_file (reader_result sample_file)) admin
  = [AddDoc ["artifacts"; "default-app-id"; "public"; "data"; "files"]
       {| Fields.name := "a.txt"; Fields.type := "text/plain"; Fields.size := 5;
          Fields.data := "data:text/plain;base64,aGVsbG8=";
          Fields.createdAt := serverTimestamp |}].
Proof. reflexivity. Qed.

Example login_sample :
  let s := exec (run None None [HeaderButtonClick; PinInputChange "432272"; LoginSubmit]) initial in
  (isAdmin s, showLoginModal s, pinInput s, toast s)
  = (true, false, "", Some (Toast.mk "Welcome Admin! Access Granted." "success")).
Proof. reflexivity. Qed.

Example login_denied_sample :
  let s := exec (run None None [HeaderButtonClick; PinInputChange "43227"; LoginSubmit]) initial in
  (isAdmin s, showLoginModal s, pinInput s, toast s)
  = (false, true, "43227", Some (Toast.mk "Incorrect PIN. Access Denied." "error")).
Proof. reflexivity. Qed.

Example auth_sample :
  calls (run None None [Mounted; AuthStateChanged (Some "u1");
                        AuthStateChanged (Some "u1"); AuthStateChanged None]) initial
  = [SignInAnonymously; OnAuthStateChanged; OnSnapshot (q None); Unsubscribe].
Proof. reflexivity. Qed.

Example upload_settled_sample :
  reader_onload_settled true admin
  = (tt,
     {| user := Some "u1"; files := []; isAdmin := true; showLoginModal := false;
        pinInput := ""; uploading := false;
        toast := Some (Toast.mk "File uploaded successfully!" "success") |},
     [SetTimeout 3000; ClearFileInput]).
Proof. reflexivity. Qed.

Example upload_failed_sample :
  calls (reader_onload_settled false) admin = [ConsoleError "Upload error"; SetTimeout 3000].
Proof. reflexivity. Qed.

Example delete_sample :
  calls (run None None [DeleteClick "id1" true; DeleteDocSettled true]) admin
  = [WindowConfirm "Are you sure you want to delete this file?";
     DeleteDoc ["artifacts"; "default-app-id"; "public"; "data"; "files"; "id1"];
     SetTimeout 3000].
Proof. reflexivity. Qed.

Example end_to_end_sample :
  let r1 := Registry.addDoc "id1" 10 (Fields.mk "a.txt" "text/plain" 5
              (reader_result sample_file) serverTimestamp) [] in
  let s1 := exec (onSnapshot_next (Registry.snapshot (q None) r1)) admin in
  let s2 := exec (onSnapshot_next (Registry.snapshot (q None) (Registry.deleteDoc "id1" r1))) s1 in
  (map FileRecord.name (files s1),
   map (fun f => Codec.data_url_decode (FileRecord.data f)) (files s1),
   files s2)
  = (["a.txt"], [Some (File.bytes sample_file)], []).
Proof. reflexivity. Qed.

Example sextets_Man :
  Codec.base64_encode ["M"%byte; "a"%byte; "n"%byte] = "TWFu".
Proof. reflexivity. Qed.

Example encode_hello :
  Codec.base64_encode ["h"%byte; "e"%byte; "l"%byte; "l"%byte; "o"%byte] = "aGVsbG8=".
Proof. reflexivity. Qed.

Example decode_hello :
  Codec.forgiving_base64_decode "aGVsbG8=" = Some ["h"%byte; "e"%byte; "l"%byte; "l"%byte; "o"%byte].
Proof. reflexivity. Qed.

Example encode_M : Codec.base64_encode ["M"%byte] = "TQ==".
Proof. reflexivity. Qed.

Example decode_M : Codec.forgiving_base64_decode "TQ==" = Some ["M"%byte].
Proof. reflexivity. Qed.

Example readAsDataURL_hello :
  Codec.readAsDataURL "text/plain" ["h"%byte; "e"%byte; "l"%byte; "l"%byte; "o"%byte]
  = "data:text/plain;base64,aGVsbG8=".
Proof. reflexivity. Qed.

Example data_url_decode_hello :
  Codec.data_url_decode "data:text/plain;base64,aGVsbG8="
  = Some ["h"%byte; "e"%byte; "l"%byte; "l"%byte; "o"%byte].
Proof. reflexivity. Qed.

Example data_url_decode_plain :
  Codec.data_url_decode "data:,A%20b" = Some ["A"%byte; " "%byte; "b"%byte].
Proof. reflexivity. Qed.

Example data_url_decode_empty :
  Codec.data_url_decode (Codec.readAsDataURL "" []) = Some [].
Proof. reflexivity. Qed.

(** ** Facts about the codec *)
Section CodecFacts.
Import Codec.

Lemma triple_ind {A : Type} (P : list A -> Prop) :
  P [] ->
  (forall a, P [a]) ->
  (forall a b, P [a; b]) ->
  (forall a b c l, P l -> P (a :: b :: c :: l)) ->
  forall l, P l.
Proof.
  intros H0 H1 H2 H3. fix IH 1.
  intros [|a [|b [|c l]]].
  - exact H0.
  - apply H1.
  - apply H2.
  - apply H3, IH.
Qed.

Lemma byte_of_to_N (b : byte) : byte_of_N (Byte.to_N b) = b.
Proof. unfold byte_of_N. by rewrite Byte.of_to_N. Qed.

Lemma byte_of_N_eq (n : N) (b : byte) : n = Byte.to_N b -> byte_of_N n = b.
Proof. intros ->. apply byte_of_to_N. Qed.

Lemma sextet_char_facts (n : N) :
  (n < 64)%N ->
  char_sextet (sextet_char n) = Some n
  /\ is_pad (sextet_char n) = false
  /\ is_ascii_whitespace (sextet_char n) = false
  /\ Ascii.eqb (sextet_char n) percent = false.
Proof.
  intros Hn. destruct n as [|p]; [by vm_compute|].
  do 6 (try (destruct p as [p|p|])); try lia; by vm_compute.
Qed.

Lemma sextets_bound (bs : list byte) : Forall (fun n => (n < 64)%N) (sextets bs).
Proof.
  induction bs as [|a|a b|a b c l IH] using triple_ind; cbn [sextets].
  - constructor.
  - pose proof (Byte.to_N_bounded a). repeat (constructor; [divlia|]). constructor.
  - pose proof (Byte.to_N_bounded a). pose proof (Byte.to_N_bounded b).
    repeat (constructor; [divlia|]). constructor.
  - pose proof (Byte.to_N_bounded a). pose proof (Byte.to_N_bounded b).
    pose proof (Byte.to_N_bounded c).
    repeat (constructor; [divlia|]). exact IH.
Qed.

Lemma sextets_bytes_sextets (bs : list byte) : sextets_bytes (sextets bs) = bs.
Proof.
  induction bs as [|a|a b|a b c l IH] using triple_ind; cbn [sextets sextets_bytes].
  - reflexivity.
  - pose proof (Byte.to_N_bounded a). f_equal. apply byte_of_N_eq. divlia.
  - pose proof (Byte.to_N_bounded a). pose proof (Byte.to_N_bounded b).
    f_equal; [|f_equal]; apply byte_of_N_eq; divlia.
  - pose proof (Byte.to_N_bounded a). pose proof (Byte.to_N_bounded b).
    pose proof (Byte.to_N_bounded c).
    rewrite IH. f_equal; [|f_equal; [|f_equal]]; apply byte_of_N_eq; divlia.
Qed.

Lemma all_sextets_chars (ss : list N) :
  Forall (fun n => (n < 64)%N) ss -> all_sextets (map sextet_char ss) = Some ss.
Proof.
  induction 1 as [|n ss Hn _ IH]; cbn [map all_sextets]; [reflexivity|].
  destruct (sextet_char_facts n Hn) as (-> & _). by rewrite IH.
Qed.

Lemma chars_no_pad (bs : list byte) : Forall (fun c => is_pad c = false) (chars bs).
Proof.
  unfold chars. apply Forall_map. eapply Forall_impl; [apply sextets_bound|].
  intros n Hn. apply (sextet_char_facts n Hn).
Qed.

Lemma encoded_no_whitespace (bs : list byte) :
  Forall (fun c => is_ascii_whitespace c = false) (chars bs ++ padding (length bs)).
Proof.
  apply Forall_app. split.
  - unfold chars. apply Forall_map. eapply Forall_impl; [apply sextets_bound|].
    intros n Hn. apply (sextet_char_facts n Hn).
  - unfold padding. destruct (length bs mod 3)%nat as [|[|[|?]]]; repeat constructor.
Qed.

Lemma encoded_no_percent (bs : list byte) :
  Forall (fun c => Ascii.eqb c percent = false) (chars bs ++ padding (length bs)).
Proof.
  apply Forall_app. split.
  - unfold chars. apply Forall_map. eapply Forall_impl; [apply sextets_bound|].
    intros n Hn. apply (sextet_char_facts n Hn).
  - unfold padding. destruct (length bs mod 3)%nat as [|[|[|?]]]; repeat constructor.
Qed.

Lemma filter_all {A : Type} (f : A -> bool) (l : list A) :
  Forall (fun x => f x = true) l -> List.filter f l = l.
Proof. induction 1 as [|x l Hx _ IH]; cbn; [done|]. by rewrite Hx, IH. Qed.

Lemma percent_decode_id (l : list ascii) :
  Forall (fun c => Ascii.eqb c percent = false) l -> percent_decode l = l.
Proof. induction 1 as [|c l Hc _ IH]; cbn; [done|]. by rewrite Hc, IH. Qed.

Lemma padding_step (n : nat) : padding (S (S (S n))) = padding n.
Proof.
  unfold padding. replace (S (S (S n))) with (n + 1 * 3)%nat by lia.
  by rewrite Nat.Div0.mod_add.
Qed.

(** The number of characters before the padding, by the padding written. *)
Lemma chars_length (bs : list byte) :
  exists k : nat,
    (padding (length bs) = [] /\ length (chars bs) = (0 + k * 4)%nat)
    \/ (padding (length bs) = [pad; pad] /\ length (chars bs) = (2 + k * 4)%nat)
    \/ (padding (length bs) = [pad] /\ length (chars bs) = (3 + k * 4)%nat).
Proof.
  unfold chars.
  induction bs as [|a|a b|a b c l [k IH]] using triple_ind.
  - exists 0%nat. by left.
  - exists 0%nat. right. by left.
  - exists 0%nat. right. by right.
  - exists (S k). cbn [length]. rewrite padding_step. cbn [sextets map length].
    destruct IH as [[-> ->]|[[-> ->]|[-> ->]]]; [left|right; left|right; right];
      (split; [done|lia]).
Qed.

Lemma multiple_of_four (k : nat) : ((0 + k * 4) mod 4 =? 0)%nat = true.
Proof. by rewrite Nat.Div0.mod_add. Qed.

Lemma strip_padding_none (l : list ascii) (k : nat) :
  Forall (fun c => is_pad c = false) l ->
  length l = (0 + k * 4)%nat ->
  strip_padding l = l.
Proof.
  intros Hl Hlen. unfold strip_padding.
  rewrite Hlen, multiple_of_four.
  apply Forall_rev in Hl.
  destruct (rev l) as [|p1 [|p2 r]]; [done| |];
    by rewrite (Forall_inv Hl).
Qed.

Lemma strip_padding_two (l : list ascii) (k : nat) :
  length l = (2 + k * 4)%nat ->
  strip_padding (l ++ [pad; pad]) = l.
Proof.
  intros Hlen. unfold strip_padding.
  rewrite length_app, Hlen. cbn [length].
  replace (2 + k * 4 + 2)%nat with (0 + (S k) * 4)%nat by lia.
  rewrite multiple_of_four, rev_app_distr.
  change (rev [pad; pad]) with [pad; pad]. cbn [app].
  change (is_pad pad) with true. apply rev_involutive.
Qed.

Lemma strip_padding_one (l : list ascii) (k : nat) :
  Forall (fun c => is_pad c = false) l ->
  length l = (3 + k * 4)%nat ->
  strip_padding (l ++ [pad]) = l.
Proof.
  intros Hl Hlen. unfold strip_padding.
  rewrite length_app, Hlen. cbn [length].
  replace (3 + k * 4 + 1)%nat with (0 + (S k) * 4)%nat by lia.
  rewrite multiple_of_four, rev_app_distr.
  change (rev [pad]) with [pad]. cbn [app].
  apply Forall_rev in Hl.
  destruct (rev l) as [|p2 r] eqn:E.
  - apply (f_equal (@length ascii)) in E. rewrite length_rev, Hlen in E. discriminate.
  - change (is_pad pad) with true. rewrite (Forall_inv Hl), <- E.
    apply rev_involutive.
Qed.

Lemma base64_roundtrip (bs : list byte) :
  forgiving_base64_decode (base64_encode bs) = Some bs.
Proof.
  unfold forgiving_base64_decode, base64_encode. fold (chars bs).
  rewrite list_ascii_of_string_of_list_ascii.
  rewrite filter_all.
  2:{ eapply Forall_impl; [apply encoded_no_whitespace|]. by intros c ->. }
  pose proof (chars_no_pad bs) as Hpad.
  assert (strip_padding (chars bs ++ padding (length bs)) = chars bs
          /\ (length (chars bs) mod 4 =? 1)%nat = false) as [-> ->].
  { destruct (chars_length bs) as [k [[-> Hk]|[[-> Hk]|[-> Hk]]]].
    - rewrite app_nil_r. split; [by eapply strip_padding_none|].
      by rewrite Hk, Nat.Div0.mod_add.
    - split; [by eapply strip_padding_two|]. by rewrite Hk, Nat.Div0.mod_add.
    - split; [by eapply strip_padding_one|]. by rewrite Hk, Nat.Div0.mod_add. }
  unfold chars. rewrite all_sextets_chars by apply sextets_bound.
  cbn. by rewrite sextets_bytes_sextets.
Qed.

Lemma list_ascii_of_string_app (a b : string) :
  list_ascii_of_string (a +:+ b)
  = (list_ascii_of_string a ++ list_ascii_of_string b)%list.
Proof.
  induction a as [|c a IH]; simpl; [done|]. by rewrite IH.
Qed.

Lemma split_comma_first (h b : list ascii) :
  forallb (fun c => negb (Ascii.eqb c comma)) h = true ->
  split_comma (h ++ comma :: b)%list = Some (h, b).
Proof.
  induction h as [|c h IH]; cbn [forallb app split_comma]; intros Hh.
  - done.
  - apply andb_prop in Hh as [Hc Hh]. apply negb_true_iff in Hc.
    by rewrite Hc, IH.
Qed.

Lemma base64_marker_suffix (type : list ascii) :
  base64_marker (type ++ list_ascii_of_string ";base64")%list = true.
Proof. unfold base64_marker. rewrite rev_app_distr. reflexivity. Qed.

Lemma data_url_roundtrip (type : string) (bs : list byte) :
  comma_free type = true ->
  data_url_decode (readAsDataURL type bs) = Some bs.
Proof.
  intros Htype. unfold data_url_decode, readAsDataURL.
  rewrite list_ascii_of_string_app.
  change (strip_prefix (list_ascii_of_string "data:")
            (list_ascii_of_string "data:" ++ ?l)%list) with (Some l).
  rewrite !list_ascii_of_string_app.
  change (list_ascii_of_string ";base64,")
    with (list_ascii_of_string ";base64" ++ [comma])%list.
  rewrite <- app_assoc, app_assoc. cbn [app].
  rewrite split_comma_first.
  2:{ rewrite forallb_app. apply andb_true_intro. by split. }
  rewrite base64_marker_suffix.
  unfold base64_encode at 1. rewrite list_ascii_of_string_of_list_ascii.
  fold (chars bs). rewrite percent_decode_id by apply encoded_no_percent.
  apply base64_roundtrip.
Qed.

End CodecFacts.

(** ** Facts about the handlers *)

Lemma exec_bind (m k : M unit) (s : State) : exec (m ;; k) s = exec k (exec m s).
Proof.
  unfold exec, mbind, M_bind. destruct (m s) as [[[] s1] t1]. cbn.
  by destruct (k s1) as [[[] s2] t2].
Qed.

Lemma calls_bind (m k : M unit) (s : State) :
  calls (m ;; k) s = (calls m s ++ calls k (exec m s))%list.
Proof.
  unfold calls, exec, mbind, M_bind. destruct (m s) as [[[] s1] t1]. cbn.
  by destruct (k s1) as [[[] s2] t2].
Qed.

Lemma files_step (app_id token : option string) (e : event) (s : State) :
  is_snapshot e = false -> files (exec (step app_id token e) s) = files s.
Proof.
  intros He. destruct e; try discriminate He; handler;
    repeat (case_match; simplify_eq; cbn in * ); reflexivity.
Qed.

Lemma files_run (app_id token : option string) (es : list event) (s : State) :
  Forall (fun e => is_snapshot e = false) es ->
  files (exec (run app_id token es) s) = files s.
Proof.
  intros Hes. revert s. induction Hes as [|e es He _ IH]; intros s; [reflexivity|].
  cbn [run]. rewrite exec_bind, IH. by apply files_step.
Qed.

(** ** Facts about the registry model *)
Section RegistryFacts.
Import Registry.

Lemma insert_desc_perm (d : Doc.t) (l : list Doc.t) : insert_desc d l ≡ₚ d :: l.
Proof.
  induction l as [|x l IH]; cbn [insert_desc]; [done|].
  case_match; [done|]. rewrite IH. apply Permutation_swap.
Qed.

Lemma ordered_desc_perm (r : t) : ordered_desc r ≡ₚ r.
Proof.
  unfold ordered_desc. induction r as [|d r IH]; cbn [foldr]; [done|].
  by rewrite insert_desc_perm, IH.
Qed.

Lemma insert_desc_sorted (d : Doc.t) (l : list Doc.t) :
  newest_first (map created l) -> newest_first (map created (insert_desc d l)).
Proof.
  unfold newest_first. induction l as [|x l IH]; cbn [insert_desc map]; intros Hl.
  - repeat constructor.
  - apply StronglySorted_inv in Hl as [Hl Hx].
    destruct (created x <=? created d)%Z eqn:E; cbn [map].
    + apply Z.leb_le in E. constructor; [by constructor|].
      constructor; [done|]. eapply Forall_impl; [exact Hx|].
      cbn. intros y Hy. lia.
    + apply Z.leb_gt in E. constructor; [by apply IH|].
      rewrite (Permutation_map created (insert_desc_perm d l)). cbn [map].
      constructor; [lia|done].
Qed.

Lemma ordered_desc_sorted (r : t) : newest_first (map created (ordered_desc r)).
Proof.
  unfold ordered_desc. induction r as [|d r IH]; cbn [foldr].
  - constructor.
  - by apply insert_desc_sorted.
Qed.

Lemma ordered_desc_newest (d : Doc.t) (r : t) :
  Forall (fun x => (created x < created d)%Z) r ->
  ordered_desc (r ++ [d])%list = d :: ordered_desc r.
Proof.
  unfold ordered_desc. rewrite foldr_app. cbn [foldr insert_desc].
  induction 1 as [|x r Hx _ IH]; cbn [foldr]; [done|].
  rewrite IH. cbn [insert_desc].
  apply Z.leb_gt in Hx. by rewrite Hx.
Qed.

End RegistryFacts.

(** ** Properties of the specification *)

(** C1.  For every byte sequence [b], the empty one included, decoding the
    codec's text for [b] gives back exactly [b]: the [data:] URL the reader
    produces at upload for a file with the bytes [b] is what the upload
    writes as [data], and the link clicked at download for the record cached
    from it saves [b].  The file's media type is one without a comma, as
    browsers report them. *)
Theorem decode_encode (app_id : option string) (name type : string) (b : list byte)
    (id : string) (now : Z) (s s' : State) :
  Codec.comma_free type = true ->
  let file := File.mk name type b in
  Codec.data_url_decode (Codec.readAsDataURL type b) = Some b
  /\ exists w,
       calls (reader_onload app_id file (reader_result file)) s
       = [AddDoc (filesPath app_id) w]
       /\ Fields.data w = Codec.readAsDataURL type b
       /\ (head (calls (handleDownload (fileRecord (Registry.stored id now w))) s')
           ≫= downloaded) = Some b.
Proof.
  intros Htype file. pose proof (data_url_roundtrip type b Htype) as Hround.
  split; [exact Hround|].
  eexists. split; [reflexivity|]. split; [reflexivity|].
  unfold calls, handleDownload, showToast, call. cbn. exact Hround.
Qed.

Lemma decode_encode_witness :
  Codec.comma_free "text/plain" = true
  /\ Codec.data_url_decode
       (Codec.readAsDataURL "text/plain" ["h"%byte; "e"%byte; "l"%byte; "l"%byte; "o"%byte])
     = Some ["h"%byte; "e"%byte; "l"%byte; "l"%byte; "o"%byte]
  /\ Codec.data_url_decode (Codec.readAsDataURL "text/plain" []) = Some [].
Proof.
  assert (Htype : Codec.comma_free "text/plain" = true) by reflexivity.
  split; [exact Htype|].
  split.
  - exact (proj1 (decode_encode None "a.txt" "text/plain" _ "id1" 10 admin admin Htype)).
  - exact (proj1 (decode_encode None "empty.txt" "text/plain" [] "id1" 10 admin admin Htype)).
Defined.

(** C2.  A selected file of more than 700,000 bytes only gets the error
    notification: the handler sets the toast, arms its timer and returns, with
    no read of the file, no call to the registry and no other state changed.
    A file of at most 700,000 bytes passes the guard: the uploading flag is set
    and the file is handed to the reader. *)
Theorem upload_size_guard (file : File.t) (rest : list File.t) (s : State) :
  ((700000 < File.size file)%Z ->
     handleFileUpload (file :: rest) s
     = (tt,
        {| user := user s; files := files s; isAdmin := isAdmin s;
           showLoginModal := showLoginModal s; pinInput := pinInput s;
           uploading := uploading s;
           toast := Some (Toast.mk "File too large! Max 700KB for this demo." "error") |},
        [SetTimeout 3000])
     /\ Forall (fun e => is_remote e = false) (calls (handleFileUpload (file :: rest)) s))
  /\ ((File.size file <= 700000)%Z ->
     handleFileUpload (file :: rest) s
     = (tt,
        {| user := user s; files := files s; isAdmin := isAdmin s;
           showLoginModal := showLoginModal s; pinInput := pinInput s;
           uploading := true; toast := toast s |},
        [ReadAsDataURL file])).
Proof.
  split; intros Hsize; unfold calls, handleFileUpload; cbn [head].
  - apply Z.ltb_lt in Hsize. rewrite Hsize. split; [reflexivity|].
    repeat constructor.
  - apply Z.ltb_ge in Hsize. by rewrite Hsize.
Qed.

Lemma upload_size_guard_witness :
  ((700000 < File.size big_file)%Z
   /\ calls (handleFileUpload [big_file]) admin = [SetTimeout 3000])
  /\ ((File.size sample_file <= 700000)%Z
      /\ calls (handleFileUpload [sample_file]) admin = [ReadAsDataURL sample_file]).
Proof.
  assert (Hbig : (700000 < File.size big_file)%Z) by (by vm_compute).
  assert (Hsmall : (File.size sample_file <= 700000)%Z) by (by vm_compute).
  split; split; [exact Hbig| |exact Hsmall|].
  - unfold calls.
    by rewrite (proj1 (proj1 (upload_size_guard big_file [] admin) Hbig)).
  - unfold calls.
    by rewrite (proj2 (upload_size_guard sample_file [] admin) Hsmall).
Defined.

(** C3.  The admin session has two states.  Submitting the login form with
    the PIN in the field ends in [Admin]; with any other string in the field
    the session is left as it was, so a guest stays a guest, and the failure
    toast is shown; logging out ends in [Guest] from either state. *)
Theorem admin_session_machine (s : State) :
  (session s = Guest \/ session s = Admin)
  /\ (pinInput s = ADMIN_PIN -> session (exec handleAdminLogin s) = Admin)
  /\ (pinInput s <> ADMIN_PIN ->
      session (exec handleAdminLogin s) = session s
      /\ (session s = Guest -> session (exec handleAdminLogin s) = Guest)
      /\ toast (exec handleAdminLogin s)
         = Some (Toast.mk "Incorrect PIN. Access Denied." "error"))
  /\ session (exec handleLogout s) = Guest.
Proof.
  split; [unfold session; destruct (isAdmin s); auto|].
  split; [|split; [|reflexivity]]; intros Hpin.
  - apply String.eqb_eq in Hpin. handler. by rewrite Hpin.
  - apply String.eqb_neq in Hpin. handler. rewrite Hpin. cbn. auto.
Qed.

Lemma admin_session_machine_witness :
  (pinInput (guest_typed "432272") = ADMIN_PIN
   /\ session (exec handleAdminLogin (guest_typed "432272")) = Admin)
  /\ (pinInput (guest_typed "43227") <> ADMIN_PIN
      /\ session (guest_typed "43227") = Guest
      /\ session (exec handleAdminLogin (guest_typed "43227")) = Guest).
Proof.
  assert (Hright : pinInput (guest_typed "432272") = ADMIN_PIN) by reflexivity.
  assert (Hwrong : pinInput (guest_typed "43227") <> ADMIN_PIN) by discriminate.
  split.
  - split; [exact Hright|].
    exact (proj1 (proj2 (admin_session_machine (guest_typed "432272"))) Hright).
  - split; [exact Hwrong|]. split; [reflexivity|].
    destruct (admin_session_machine (guest_typed "43227")) as (_ & _ & H & _).
    destruct (H Hwrong) as (_ & Hguest & _). apply Hguest. reflexivity.
Defined.

(** C4.  No event but a delivered snapshot changes the cached [files]: over
    any sequence of events without one, in particular every phase of the
    upload and delete handlers, [files] stays what it was; a delivered
    snapshot replaces it by the image of the delivered documents. *)
Theorem files_replaced_only_by_snapshot (app_id token : option string)
    (es : list event) (docs : list Doc.t) (s : State) :
  (Forall (fun e => is_snapshot e = false) es ->
   files (exec (run app_id token es) s) = files s)
  /\ files (exec (step app_id token (SnapshotNext docs)) s) = map fileRecord docs.
Proof. split; [apply files_run | reflexivity]. Qed.

Lemma files_replaced_only_by_snapshot_witness :
  let es := [FileInputChange [sample_file];
             ReaderLoad sample_file (reader_result sample_file);
             AddDocSettled true; AddDocSettled false;
             DeleteClick "id1" true; DeleteDocSettled true;
             DeleteClick "id1" false; DeleteDocSettled false] in
  Forall (fun e => is_snapshot e = false) es
  /\ files (exec (run None None es) listing) = [sample_record].
Proof.
  cbn zeta.
  match goal with |- ?H /\ _ => assert (Hes : H) by (repeat constructor) end.
  split; [exact Hes|].
  exact (proj1 (files_replaced_only_by_snapshot None None _ [] listing) Hes).
Defined.

(** C5.  The error callback of the subscription logs and shows a toast; the
    cached snapshot and every other field stay as they were. *)
Theorem subscription_error_keeps_snapshot (s : State) :
  onSnapshot_error s
  = (tt,
     {| user := user s; files := files s; isAdmin := isAdmin s;
        showLoginModal := showLoginModal s; pinInput := pinInput s;
        uploading := uploading s;
        toast := Some (Toast.mk "Error loading files" "error") |},
     [ConsoleError "Error fetching files:"; SetTimeout 3000])
  /\ files (exec onSnapshot_error s) = files s.
Proof. split; reflexivity. Qed.

(** C6.  When the remote delete fails, the handler shows the failure toast
    and nothing else: the cached sequence is unchanged, so a record with the
    deleted id that was in it is still there, and no further call is made
    beyond the toast's timer. *)
Theorem delete_failed_keeps_state (fileId : string) (s : State) :
  handleDelete_settled false s
  = (tt,
     {| user := user s; files := files s; isAdmin := isAdmin s;
        showLoginModal := showLoginModal s; pinInput := pinInput s;
        uploading := uploading s;
        toast := Some (Toast.mk "Could not delete file." "error") |},
     [SetTimeout 3000])
  /\ files (exec (handleDelete_settled false) s) = files s
  /\ forall app_id token,
       files (exec (run app_id token [DeleteClick fileId true; DeleteDocSettled false]) s)
       = files s.
Proof. repeat split. Qed.

(** C7, as the code has it.  [handleDelete] first asks [window.confirm];
    the delete of that document is submitted exactly when the answer is yes,
    with no check of the id, and a refusal ends the handler with no call to
    the registry.  The state is untouched either way. *)
Theorem delete_after_confirmation (app_id : option string) (fileId : string)
    (confirmed : bool) (s : State) :
  handleDelete app_id fileId confirmed s
  = (tt, s,
     WindowConfirm "Are you sure you want to delete this file?"
       :: (if confirmed
           then [DeleteDoc ["artifacts"; appId app_id; "public"; "data"; "files"; fileId]]
           else [])).
Proof. by destruct confirmed. Qed.

(** C7 as stated fails: with the confirmation refused, the handler stops
    after [window.confirm] and the delete of "id1" is not submitted. *)
Lemma delete_not_unconditional :
  calls (handleDelete None "id1" false) admin
  = [WindowConfirm "Are you sure you want to delete this file?"]
  /\ ~ In (DeleteDoc ["artifacts"; "default-app-id"; "public"; "data"; "files"; "id1"])
         (calls (handleDelete None "id1" false) admin).
Proof.
  split; [reflexivity|]. cbn. intros [H|[]]. discriminate H.
Qed.

(** C10.  With no file selected the upload handler returns at once: same
    state, no call. *)
Theorem upload_without_file (s : State) :
  handleFileUpload [] s = (tt, s, [])
  /\ exec (handleFileUpload []) s = s
  /\ calls (handleFileUpload []) s = [].
Proof. repeat split. Qed.

(** C8.  For an accepted file the handlers hand the file to the reader and
    then submit one record: the file's name, type and size, the [data:] URL of
    its bytes as [data], and the [serverTimestamp()] sentinel as [createdAt].
    Once the registry has stored it, the snapshot has exactly this one record
    more, and so has the cached sequence after the callback; the cached
    record has the file's name, type and size, and its payload decodes to the
    file's bytes. *)
Theorem upload_record_submitted (app_id token : option string) (file : File.t)
    (rest : list File.t) (id : string) (now : Z) (r : Registry.t) (s : State) :
  (File.size file <= 700000)%Z ->
  Codec.comma_free (File.type file) = true ->
  let w := {| Fields.name := File.name file;
              Fields.type := File.type file;
              Fields.size := File.size file;
              Fields.data := Codec.readAsDataURL (File.type file) (File.bytes file);
              Fields.createdAt := serverTimestamp |} in
  let before := Registry.snapshot (q app_id) r in
  let after := Registry.snapshot (q app_id) (Registry.addDoc id now w r) in
  let f := fileRecord (Registry.stored id now w) in
  calls (run app_id token [FileInputChange (file :: rest);
                           ReaderLoad file (reader_result file)]) s
  = [ReadAsDataURL file; AddDoc (filesPath app_id) w]
  /\ after ≡ₚ Registry.stored id now w :: before
  /\ files (exec (onSnapshot_next after) s) ≡ₚ f :: files (exec (onSnapshot_next before) s)
  /\ length (files (exec (onSnapshot_next after) s))
     = S (length (files (exec (onSnapshot_next before) s)))
  /\ FileRecord.id f = id
  /\ FileRecord.name f = File.name file
  /\ FileRecord.type f = File.type file
  /\ FileRecord.size f = File.size file
  /\ Codec.data_url_decode (FileRecord.data f) = Some (File.bytes file).
Proof.
  intros Hsize Htype w before after f.
  assert (Hperm : after ≡ₚ Registry.stored id now w :: before).
  { subst before after. unfold Registry.snapshot, Registry.addDoc. cbn.
    rewrite !ordered_desc_perm. by rewrite Permutation_app_comm. }
  assert (Hfiles : files (exec (onSnapshot_next after) s)
                   ≡ₚ f :: files (exec (onSnapshot_next before) s)).
  { change (map fileRecord after ≡ₚ fileRecord (Registry.stored id now w)
              :: map fileRecord before).
    by rewrite (Permutation_map fileRecord Hperm). }
  split; [|split; [exact Hperm|split; [exact Hfiles|split]]].
  - unfold calls, run, step, handleFileUpload. cbn [head].
    apply Z.ltb_ge in Hsize. by rewrite Hsize.
  - by rewrite (Permutation_length Hfiles).
  - repeat split. by apply data_url_roundtrip.
Qed.

Lemma upload_record_submitted_witness :
  (File.size sample_file <= 700000)%Z
  /\ Codec.comma_free (File.type sample_file) = true
  /\ calls (run None None [FileInputChange [sample_file];
                           ReaderLoad sample_file (reader_result sample_file)]) admin
     = [ReadAsDataURL sample_file;
        AddDoc ["artifacts"; "default-app-id"; "public"; "data"; "files"]
          (Fields.mk "a.txt" "text/plain" 5 "data:text/plain;base64,aGVsbG8="
             serverTimestamp)].
Proof.
  assert (Hsize : (File.size sample_file <= 700000)%Z) by (by vm_compute).
  assert (Htype : Codec.comma_free (File.type sample_file) = true) by reflexivity.
  split; [exact Hsize|]. split; [exact Htype|].
  exact (proj1 (upload_record_submitted None None sample_file [] "id1" 10 [] admin
                  Hsize Htype)).
Defined.

(** C9.  The data effect subscribes with a query ordered by [createdAt]
    descending; every snapshot the registry delivers for it is sorted by
    [createdAt] descending; the callback stores the image of the delivered
    documents position for position, so the cached sequence has the
    snapshot's order; and a record created later than all the others comes
    first in the next snapshot. *)
Theorem snapshot_newest_first (app_id : option string) (uid : string)
    (r : Registry.t) (docs : list Doc.t) (id : string) (now : Z)
    (w : Fields.t FieldValue) (s : State) :
  calls (dataFetching app_id (Some uid)) s
  = [OnSnapshot {| collectionPath := filesPath app_id;
                   orderByField := "createdAt";
                   orderByDirection := desc |}]
  /\ newest_first (map Registry.created (Registry.snapshot (q app_id) r))
  /\ (forall i : nat,
        files (exec (onSnapshot_next docs) s) !! i = fileRecord <$> docs !! i)
  /\ map FileRecord.createdAt (files (exec (onSnapshot_next docs) s))
     = map Registry.created docs
  /\ newest_first (map FileRecord.createdAt
                     (files (exec (onSnapshot_next (Registry.snapshot (q app_id) r)) s)))
  /\ (Forall (fun x => (Registry.created x < Registry.created (Registry.stored id now w))%Z) r ->
      Registry.snapshot (q app_id) (Registry.addDoc id now w r)
      = Registry.stored id now w :: Registry.snapshot (q app_id) r).
Proof.
  assert (Hmap : forall l, map FileRecord.createdAt (map fileRecord l)
                           = map Registry.created l).
  { intros l. rewrite map_map. reflexivity. }
  split; [reflexivity|]. split; [apply ordered_desc_sorted|].
  split; [intros i; exact (list_lookup_fmap fileRecord docs i)|].
  split; [apply Hmap|]. split.
  - change (files (exec (onSnapshot_next (Registry.snapshot (q app_id) r)) s))
      with (map fileRecord (Registry.ordered_desc r)).
    rewrite Hmap. apply ordered_desc_sorted.
  - apply ordered_desc_newest.
Qed.

Lemma snapshot_newest_first_witness :
  let old := Registry.stored "id1" 10 (Fields.mk "a.txt" "text/plain" 5 "data:," serverTimestamp) in
  let new := Fields.mk "b.txt" "text/plain" 7 "data:," serverTimestamp in
  Forall (fun x => (Registry.created x < Registry.created (Registry.stored "id2" 20 new))%Z) [old]
  /\ Registry.snapshot (q None) (Registry.addDoc "id2" 20 new [old])
     = [Registry.stored "id2" 20 new; old].
Proof.
  cbn zeta.
  match goal with |- ?H /\ _ => assert (Hlater : H) by (repeat constructor) end.
  split; [exact Hlater|].
  exact (proj2 (proj2 (proj2 (proj2 (proj2
    (snapshot_newest_first None "u1" _ [] "id2" 20 _ admin))))) Hlater).
Defined.

(** ** Further properties of the component *)

Example split_sample : split "/"%char "a/b/c" = ["a"; "b"; "c"].
Proof. reflexivity. Qed.

Example split_trailing_sample : split "/"%char "text/" = ["text"; ""].
Proof. reflexivity. Qed.

Example typeLabel_samples :
  map typeLabel ["image/png"; "text/"; "octet"; ""; "a/b/c"; "application/x-7z"]
  = ["PNG"; "FILE"; "FILE"; "FILE"; "B"; "X-7Z"].
Proof. reflexivity. Qed.

Example getFileIcon_samples :
  map getFileIcon ["image/png"; "video/mp4"; "audio/ogg"; "application/pdf";
                   "image/pdf"; "text/plain"; ""]
  = [Icon.ImageIcon; Icon.Video; Icon.Music; Icon.FileText; Icon.ImageIcon;
     Icon.File; Icon.File].
Proof. reflexivity. Qed.

Example rendered_samples :
  (rendered initial (FileInputChange [sample_file]),
   rendered admin (FileInputChange [sample_file]),
   rendered listing (DeleteClick "id1" true),
   rendered listing (DeleteClick "id2" true),
   rendered initial LoginSubmit,
   rendered (guest_typed "1") LoginSubmit)
  = (false, true, true, false, false, true).
Proof. reflexivity. Qed.

(** X1.  After any run, the cached [files] is the image of the last snapshot
    delivered during the run, whatever happened before or after it; with no
    snapshot delivered it is what it was. *)
Theorem files_after_run (app_id token : option string) (es : list event) (s : State) :
  files (exec (run app_id token es) s)
  = match last_snapshot es with
    | Some docs => map fileRecord docs
    | None => files s
    end.
Proof.
  revert s. induction es as [|e es IH]; intros s; [reflexivity|].
  cbn [run last_snapshot]. rewrite exec_bind, IH.
  destruct (last_snapshot es) as [docs|]; [reflexivity|].
  destruct e; try (by apply files_step). reflexivity.
Qed.

(** X2.  The uploading flag after one event: an accepted file sets it, a
    settled [addDoc] clears it whether it was fulfilled or rejected, and
    nothing else touches it, not an empty selection nor a file over the limit. *)
Theorem uploading_after_step (app_id token : option string) (e : event) (s : State) :
  uploading (exec (step app_id token e) s)
  = match e with
    | FileInputChange (file :: _) =>
        if (700000 <? File.size file)%Z then uploading s else true
    | AddDocSettled _ => false
    | _ => uploading s
    end.
Proof.
  destruct e; handler; repeat (case_match; simplify_eq; cbn in * );
    reflexivity || congruence.
Qed.

Lemma uploading_stays (app_id token : option string) (e : event) (s : State) :
  uploading s = true ->
  is_settled e = false ->
  uploading (exec (step app_id token e) s) = true.
Proof.
  intros Hs He.
  destruct e; try discriminate He; handler;
    repeat (case_match; simplify_eq; cbn in * ); exact Hs || reflexivity.
Qed.

Lemma uploading_kept (app_id token : option string) (es : list event) (s : State) :
  uploading s = true ->
  Forall (fun e => is_settled e = false) es ->
  uploading (exec (run app_id token es) s) = true.
Proof.
  intros Hs Hes. revert s Hs.
  induction Hes as [|e es He _ IH]; intros s Hs; [exact Hs|].
  cbn [run]. rewrite exec_bind. by apply IH, uploading_stays.
Qed.

(** X3.  While an upload is pending, no event but the settling of [addDoc]
    ends it: over any run without one the flag stays set, and the page keeps
    the file input disabled. *)
Theorem upload_pending_until_settled (app_id token : option string)
    (es : list event) (s : State) :
  uploading s = true ->
  Forall (fun e => is_settled e = false) es ->
  uploading (exec (run app_id token es) s) = true
  /\ forall fs, rendered (exec (run app_id token es) s) (FileInputChange fs) = false.
Proof.
  intros Hs Hes. pose proof (uploading_kept app_id token es s Hs Hes) as Hup.
  split; [exact Hup|]. intros fs. cbn [rendered]. rewrite Hup.
  by destruct (isAdmin _).
Qed.

Lemma upload_pending_until_settled_witness :
  let s := exec (handleFileUpload [sample_file]) listing in
  let es := [ToastTimeout; SnapshotNext []; HeaderButtonClick; HeaderButtonClick;
             FileInputChange [big_file]; DeleteDocSettled true] in
  uploading s = true
  /\ Forall (fun e => is_settled e = false) es
  /\ uploading (exec (run None None es) s) = true.
Proof.
  cbn zeta.
  assert (Hs : uploading (exec (handleFileUpload [sample_file]) listing) = true)
    by reflexivity.
  split; [exact Hs|].
  match goal with |- ?H /\ _ => assert (Hes : H) by (repeat constructor) end.
  split; [exact Hes|].
  exact (proj1 (upload_pending_until_settled None None _ _ Hs Hes)).
Defined.

(** X4.  The whole upload of an accepted file, read and write included,
    ends with the flag cleared and the cached list and the session untouched;
    the toast tells the outcome; the file input is cleared only after a
    fulfilled write and only while the admin section is on the page; a
    rejected write is logged. *)
Theorem upload_flow (app_id token : option string) (file : File.t)
    (rest : list File.t) (result : string) (fulfilled : bool) (s : State) :
  (File.size file <= 700000)%Z ->
  let es := [FileInputChange (file :: rest); ReaderLoad file result;
             AddDocSettled fulfilled] in
  exec (run app_id token es) s
  = {| user := user s; files := files s; isAdmin := isAdmin s;
       showLoginModal := showLoginModal s; pinInput := pinInput s;
       uploading := false;
       toast := Some (if fulfilled
                      then Toast.mk "File uploaded successfully!" "success"
                      else Toast.mk "Upload failed." "error") |}
  /\ calls (run app_id token es) s
     = ([ReadAsDataURL file;
         AddDoc (filesPath app_id)
           {| Fields.name := File.name file; Fields.type := File.type file;
              Fields.size := File.size file; Fields.data := result;
              Fields.createdAt := serverTimestamp |}]
        ++ (if fulfilled
            then SetTimeout 3000 :: (if isAdmin s then [ClearFileInput] else [])
            else [ConsoleError "Upload error"; SetTimeout 3000]))%list.
Proof.
  intros Hsize es. apply Z.ltb_ge in Hsize. subst es.
  unfold exec, calls, run, step, handleFileUpload. cbn [head]. rewrite Hsize.
  destruct fulfilled; handler; [destruct (isAdmin s)|]; by split.
Qed.

Lemma upload_flow_witness :
  (File.size sample_file <= 700000)%Z
  /\ uploading (exec (run None None [FileInputChange [sample_file];
                                     ReaderLoad sample_file (reader_result sample_file);
                                     AddDocSettled false]) listing) = false.
Proof.
  assert (Hsize : (File.size sample_file <= 700000)%Z) by (by vm_compute).
  split; [exact Hsize|].
  by rewrite (proj1 (upload_flow None None sample_file [] (reader_result sample_file)
                       false listing Hsize)).
Defined.

Lemma guest_step (app_id token : option string) (e : event) (s : State) :
  isAdmin s = false ->
  String.eqb (pinInput s) ADMIN_PIN = false ->
  types_pin e = false ->
  isAdmin (exec (step app_id token e) s) = false
  /\ String.eqb (pinInput (exec (step app_id token e) s)) ADMIN_PIN = false.
Proof.
  intros Hadm Hpin He.
  destruct e; handler; repeat (case_match; simplify_eq; cbn in * );
    split; congruence || reflexivity.
Qed.

(** X5.  Nobody becomes admin without the PIN being typed: from a guest
    state whose PIN field does not hold the PIN, over any run in which the
    PIN is never typed into the field, the session stays a guest's. *)
Theorem admin_requires_pin (app_id token : option string) (es : list event) (s : State) :
  isAdmin s = false ->
  pinInput s <> ADMIN_PIN ->
  Forall (fun e => types_pin e = false) es ->
  isAdmin (exec (run app_id token es) s) = false.
Proof.
  intros Hadm Hpin Hes. apply String.eqb_neq in Hpin. revert s Hadm Hpin.
  induction Hes as [|e es He _ IH]; intros s Hadm Hpin; [exact Hadm|].
  cbn [run]. rewrite exec_bind.
  destruct (guest_step app_id token e s Hadm Hpin He) as [Hadm' Hpin'].
  by apply IH.
Qed.

Lemma admin_requires_pin_witness :
  let es := [HeaderButtonClick; PinInputChange "43227"; LoginSubmit;
             PinInputChange "4322720"; LoginSubmit; ModalCloseClick;
             HeaderButtonClick; LoginSubmit; SnapshotNext []] in
  isAdmin initial = false
  /\ pinInput initial <> ADMIN_PIN
  /\ Forall (fun e => types_pin e = false) es
  /\ isAdmin (exec (run None None es) initial) = false.
Proof.
  cbn zeta.
  assert (Hadm : isAdmin initial = false) by reflexivity.
  assert (Hpin : pinInput initial <> ADMIN_PIN) by discriminate.
  split; [exact Hadm|]. split; [exact Hpin|].
  match goal with |- ?H /\ _ => assert (Hes : H) by (repeat constructor) end.
  split; [exact Hes|].
  exact (admin_requires_pin None None _ initial Hadm Hpin Hes).
Defined.

Lemma modal_step (app_id token : option string) (e : event) (s : State) :
  isAdmin s && showLoginModal s = false ->
  isAdmin (exec (step app_id token e) s)
  && showLoginModal (exec (step app_id token e) s) = false.
Proof.
  intros Hs.
  destruct e; handler; repeat (case_match; simplify_eq; cbn in * );
    try exact Hs; try reflexivity; by destruct (isAdmin s).
Qed.

(** X6.  The login modal is never open in admin mode: the property holds at
    the start and every event keeps it. *)
Theorem no_modal_for_admin (app_id token : option string) (es : list event) (s : State) :
  isAdmin initial && showLoginModal initial = false
  /\ (isAdmin s && showLoginModal s = false ->
      isAdmin (exec (run app_id token es) s)
      && showLoginModal (exec (run app_id token es) s) = false).
Proof.
  split; [reflexivity|]. revert s.
  induction es as [|e es IH]; intros s Hs; [exact Hs|].
  cbn [run]. rewrite exec_bind. by apply IH, modal_step.
Qed.

Lemma no_modal_for_admin_witness :
  let es := [HeaderButtonClick; PinInputChange "432272"; LoginSubmit;
             HeaderButtonClick; HeaderButtonClick; PinInputChange "432272";
             LoginSubmit; LoginSubmit] in
  isAdmin initial && showLoginModal initial = false
  /\ isAdmin (exec (run None None es) initial) = true
  /\ showLoginModal (exec (run None None es) initial) = false.
Proof.
  cbn zeta.
  assert (H0 : isAdmin initial && showLoginModal initial = false) by reflexivity.
  split; [exact H0|].
  match goal with
  | |- isAdmin (exec (run None None ?es) initial) = true /\ _ =>
      pose proof (proj2 (no_modal_for_admin None None es initial) H0) as H
  end.
  assert (Hadm : isAdmin (exec (run None None
            [HeaderButtonClick; PinInputChange "432272"; LoginSubmit;
             HeaderButtonClick; HeaderButtonClick; PinInputChange "432272";
             LoginSubmit; LoginSubmit]) initial) = true) by reflexivity.
  split; [exact Hadm|]. rewrite Hadm in H. exact H.
Defined.

Lemma pin_step (app_id token : option string) (e : event) (s : State) :
  rendered s e = true ->
  showLoginModal s || String.eqb (pinInput s) "" = true ->
  showLoginModal (exec (step app_id token e) s)
  || String.eqb (pinInput (exec (step app_id token e) s)) "" = true.
Proof.
  intros He Hs.
  destruct e; handler; repeat (case_match; simplify_eq; cbn in * );
    try exact Hs; try reflexivity.
  by rewrite He.
Qed.

(** X7.  A typed PIN does not outlive the modal: in a run whose events all
    come from controls that are on the page, whenever the login modal is
    closed the PIN field's state is the empty string. *)
Theorem pin_cleared_with_modal (app_id token : option string) (es : list event)
    (s : State) :
  rendered_run app_id token s es = true ->
  (showLoginModal s = false -> pinInput s = "") ->
  showLoginModal (exec (run app_id token es) s) = false ->
  pinInput (exec (run app_id token es) s) = "".
Proof.
  intros Hes Hs.
  assert (Hinv : showLoginModal s || String.eqb (pinInput s) "" = true).
  { destruct (showLoginModal s); [reflexivity|]. by rewrite Hs. }
  clear Hs.
  assert (Hend : showLoginModal (exec (run app_id token es) s)
                 || String.eqb (pinInput (exec (run app_id token es) s)) "" = true).
  { revert s Hes Hinv. induction es as [|e es IH]; intros s Hes Hinv; [exact Hinv|].
    cbn [rendered_run] in Hes. apply andb_prop in Hes as [He Hes].
    cbn [run]. rewrite exec_bind. apply IH; [exact Hes|]. by apply pin_step. }
  intros Hclosed. rewrite Hclosed in Hend. by apply String.eqb_eq.
Qed.

Lemma pin_cleared_with_modal_witness :
  let es := [HeaderButtonClick; PinInputChange "4"; PinInputChange "43";
             LoginSubmit; ModalCloseClick; SnapshotNext []] in
  rendered_run None None initial es = true
  /\ (showLoginModal initial = false -> pinInput initial = "")
  /\ showLoginModal (exec (run None None es) initial) = false
  /\ pinInput (exec (run None None es) initial) = "".
Proof.
  cbn zeta.
  match goal with |- ?H /\ _ => assert (Hes : H) by reflexivity end.
  split; [exact Hes|].
  assert (Hs : showLoginModal initial = false -> pinInput initial = "")
    by (intros _; reflexivity).
  split; [exact Hs|].
  match goal with |- ?H /\ _ => assert (Hclosed : H) by reflexivity end.
  split; [exact Hclosed|].
  exact (pin_cleared_with_modal None None _ initial Hes Hs Hclosed).
Defined.

Lemma guest_calls (app_id token : option string) (e : event) (s : State) :
  rendered s e = true ->
  isAdmin s = false ->
  Forall (fun c => starts_mutation c = false) (calls (step app_id token e) s).
Proof.
  intros He Hadm.
  destruct e; handler; rewrite ?Hadm in *; try discriminate He;
    repeat (case_match; simplify_eq; cbn in * ); repeat constructor.
Qed.

(** X8.  A visitor who never types the PIN cannot start a change of the
    registry from the page: from a guest state, over any run of events whose
    controls are on the page and in which the PIN is not typed, no file is
    read for upload and no delete is submitted. *)
Theorem guest_starts_no_mutation (app_id token : option string) (es : list event)
    (s : State) :
  isAdmin s = false ->
  pinInput s <> ADMIN_PIN ->
  Forall (fun e => types_pin e = false) es ->
  rendered_run app_id token s es = true ->
  Forall (fun c => starts_mutation c = false) (calls (run app_id token es) s).
Proof.
  intros Hadm Hpin Hes. apply String.eqb_neq in Hpin. revert s Hadm Hpin.
  induction Hes as [|e es He _ IH]; intros s Hadm Hpin Hrun; [constructor|].
  cbn [rendered_run] in Hrun. apply andb_prop in Hrun as [Hre Hrun].
  cbn [run]. rewrite calls_bind. apply Forall_app. split.
  - by apply guest_calls.
  - destruct (guest_step app_id token e s Hadm Hpin He) as [Hadm' Hpin'].
    by apply IH.
Qed.

Lemma guest_starts_no_mutation_witness :
  let s := {| user := Some "u1"; files := [sample_record]; isAdmin := false;
              showLoginModal := false; pinInput := ""; uploading := false;
              toast := None |} in
  let es := [DownloadClick sample_record; HeaderButtonClick; PinInputChange "0000";
             LoginSubmit; ModalCloseClick; SnapshotNext []; SnapshotError] in
  isAdmin s = false
  /\ pinInput s <> ADMIN_PIN
  /\ Forall (fun e => types_pin e = false) es
  /\ rendered_run None None s es = true
  /\ Forall (fun c => starts_mutation c = false) (calls (run None None es) s).
Proof.
  cbn zeta.
  match goal with |- ?H /\ _ => assert (Hadm : H) by reflexivity end.
  split; [exact Hadm|].
  match goal with |- ?H /\ _ => assert (Hpin : H) by discriminate end.
  split; [exact Hpin|].
  match goal with |- ?H /\ _ => assert (Hes : H) by (repeat constructor) end.
  split; [exact Hes|].
  match goal with |- ?H /\ _ => assert (Hrun : H) by reflexivity end.
  split; [exact Hrun|].
  exact (guest_starts_no_mutation None None _ _ Hadm Hpin Hes Hrun).
Defined.

(** X9.  Only four kinds of event reach the registry or read a file: a
    change of the signed-in user, a file selection, the reader's result and a
    delete click.  Login, logout, the modal, downloads, toast timers, the
    snapshot callbacks and the settling of a write or delete make no such
    call. *)
Theorem remote_calls_origin (app_id token : option string) (e : event) (s : State) :
  match e with
  | AuthStateChanged _ | FileInputChange _ | ReaderLoad _ _ | DeleteClick _ _ => True
  | _ => Forall (fun c => is_remote c = false) (calls (step app_id token e) s)
  end.
Proof.
  destruct e; try exact I; handler;
    repeat (case_match; simplify_eq; cbn in * ); repeat constructor.
Qed.

(** X10.  Toasts and their timers go together: an event either shows a
    toast and arms exactly one timer, of 3000 ms, or arms none, and then it
    leaves the toast as it was unless it is the timer's own callback, which
    clears it. *)
Theorem toast_timer (app_id token : option string) (e : event) (s : State) :
  (List.filter is_timer (calls (step app_id token e) s) = [SetTimeout 3000]
   /\ exists t, toast (exec (step app_id token e) s) = Some t)
  \/ (List.filter is_timer (calls (step app_id token e) s) = []
      /\ toast (exec (step app_id token e) s)
         = match e with
           | ToastTimeout => None
           | _ => toast s
           end).
Proof.
  destruct e; handler; repeat (case_match; simplify_eq; cbn in * );
    first [ by right | left; split; [reflexivity | by eexists] ].
Qed.

Lemma subscriptions_app (cs1 cs2 : list effect) :
  subscriptions (cs1 ++ cs2) = (subscriptions cs1 + subscriptions cs2)%Z.
Proof.
  induction cs1 as [|c cs1 IH]; [reflexivity|].
  destruct c; cbn [app subscriptions]; rewrite IH; lia.
Qed.

Lemma subscriptions_step (app_id token : option string) (e : event) (s : State) :
  subscriptions (calls (step app_id token e) s)
  = (signed_in (exec (step app_id token e) s) - signed_in s)%Z.
Proof.
  unfold signed_in.
  destruct e; handler; repeat (case_match; simplify_eq; cbn in * );
    reflexivity || congruence.
Qed.

(** X11.  Snapshot listeners are opened and closed in step with the signed-in
    user: over any run, listeners opened minus listeners closed is 1 if the
    run turned no user into a user, -1 for the converse and 0 otherwise; from
    the initial state there is one open listener exactly while a user is
    signed in, and none otherwise. *)
Theorem subscription_balance (app_id token : option string) (es : list event)
    (s : State) :
  subscriptions (calls (run app_id token es) s)
  = (signed_in (exec (run app_id token es) s) - signed_in s)%Z
  /\ subscriptions (calls (run app_id token es) initial)
     = match user (exec (run app_id token es) initial) with
       | Some _ => 1%Z
       | None => 0%Z
       end.
Proof.
  assert (H : forall s0, subscriptions (calls (run app_id token es) s0)
                         = (signed_in (exec (run app_id token es) s0) - signed_in s0)%Z).
  { induction es as [|e es IH]; intros s0; [cbn; lia|].
    cbn [run]. rewrite calls_bind, exec_bind, subscriptions_app, IH,
      subscriptions_step. lia. }
  split; [apply H|]. rewrite H. unfold signed_in at 2. cbn. unfold signed_in. lia.
Qed.

Lemma prefix_head (c : ascii) (p s : string) :
  String.prefix (String c p) s = true -> exists s', s = String c s'.
Proof.
  destruct s as [|b s']; cbn; [discriminate|].
  destruct (ascii_dec c b) as [->|]; [eauto|discriminate].
Qed.

(** X12.  The icon of a file card by media type: the three prefix tests
    exclude one another, so each of [image/], [video/] and [audio/] alone
    decides its icon, also for a type that has [pdf] in it; the document icon
    is for the other types with [pdf] anywhere in them, and the plain file
    icon for the rest, the empty type included. *)
Theorem icon_by_type (type : string) :
  (getFileIcon type = Icon.ImageIcon <-> startsWith type "image/" = true)
  /\ (getFileIcon type = Icon.Video <-> startsWith type "video/" = true)
  /\ (getFileIcon type = Icon.Music <-> startsWith type "audio/" = true)
  /\ (getFileIcon type = Icon.FileText <->
      includes type "pdf" = true
      /\ startsWith type "image/" = false
      /\ startsWith type "video/" = false
      /\ startsWith type "audio/" = false)
  /\ (getFileIcon type = Icon.File <->
      includes type "pdf" = false
      /\ startsWith type "image/" = false
      /\ startsWith type "video/" = false
      /\ startsWith type "audio/" = false).
Proof.
  unfold getFileIcon, startsWith.
  destruct (String.prefix "image/" type) eqn:Ei;
    destruct (String.prefix "video/" type) eqn:Ev;
    destruct (String.prefix "audio/" type) eqn:Ea;
    destruct (includes type "pdf") eqn:Ep;
    try (apply prefix_head in Ei as [? ->]);
    try (apply prefix_head in Ev as [? Hv]; try discriminate Hv; subst);
    try (apply prefix_head in Ea as [? Ha]; try discriminate Ha; subst);
    repeat split; intros; try discriminate; try reflexivity;
    repeat match goal with H : _ /\ _ |- _ => destruct H end; discriminate.
Qed.

Lemma ascii_upper_idem (c : ascii) : ascii_upper (ascii_upper c) = ascii_upper c.
Proof. by destruct c as [[] [] [] [] [] [] [] []]. Qed.

Lemma toUpperCase_idem (s : string) : toUpperCase (toUpperCase s) = toUpperCase s.
Proof.
  induction s as [|c s IH]; [reflexivity|].
  cbn [toUpperCase]. by rewrite ascii_upper_idem, IH.
Qed.

Lemma split_no_separator (s : string) :
  includes s "/" = false -> split "/"%char s = [s].
Proof.
  induction s as [|c s IH]; [reflexivity|].
  cbn [includes String.prefix split]. intros H.
  apply orb_false_elim in H as [Hc Hs].
  destruct (ascii_dec "/" c) as [->|Hne].
  - destruct s; discriminate Hc.
  - apply Ascii.eqb_neq in Hne. rewrite Ascii.eqb_sym, Hne. by rewrite (IH Hs).
Qed.

(** X13.  The type badge of a file card is never blank and always upper
    case, and it reads [FILE] for a type without a slash. *)
Theorem type_badge (type : string) :
  typeLabel type <> ""
  /\ toUpperCase (typeLabel type) = typeLabel type
  /\ (includes type "/" = false -> typeLabel type = "FILE").
Proof.
  unfold typeLabel. split; [|split].
  - destruct (split "/"%char type !! 1%nat) as [seg|]; [|discriminate].
    destruct (String.eqb (toUpperCase seg) "") eqn:E; [discriminate|].
    by apply String.eqb_neq.
  - destruct (split "/"%char type !! 1%nat) as [seg|]; [|reflexivity].
    destruct (String.eqb (toUpperCase seg) ""); [reflexivity|].
    apply toUpperCase_idem.
  - intros H. by rewrite (split_no_separator type H).
Qed.

Lemma type_badge_witness :
  includes "octet" "/" = false /\ typeLabel "octet" = "FILE".
Proof.
  assert (H : includes "octet" "/" = false) by reflexivity.
  split; [exact H|]. exact (proj2 (proj2 (type_badge "octet")) H).
Defined.






(** X15.  The cards on the page mirror the last snapshot: once a snapshot
    is delivered, a download button is on the page exactly for the records
    made from its documents, and a delete button exactly for their ids and
    only in admin mode; a download click on such a card opens a link whose
    address is the document's [data] and whose file name is its [name]. *)
Theorem cards_mirror_snapshot (docs : list Doc.t) (s : State) (f : FileRecord.t)
    (fileId : string) (confirmed : bool) (d : Doc.t) :
  let s' := exec (onSnapshot_next docs) s in
  (rendered s' (DownloadClick f) = true <-> exists x, f = fileRecord x /\ x ∈ docs)
  /\ (rendered s' (DeleteClick fileId confirmed) = true <->
      isAdmin s = true /\ exists x, fileId = Doc.id x /\ x ∈ docs)
  /\ calls (handleDownload (fileRecord d)) s'
     = [LinkClick (Fields.data (Doc.data d)) (Fields.name (Doc.data d));
        SetTimeout 3000].
Proof.
  cbn zeta. split; [|split; [|reflexivity]].
  - cbn [rendered]. rewrite bool_decide_eq_true.
    change (files (exec (onSnapshot_next docs) s)) with (fileRecord <$> docs).
    apply list_elem_of_fmap.
  - cbn [rendered]. rewrite andb_true_iff, bool_decide_eq_true.
    change (files (exec (onSnapshot_next docs) s)) with (map fileRecord docs).
    rewrite map_map.
    change (map (fun x => FileRecord.id (fileRecord x)) docs) with (Doc.id <$> docs).
    by rewrite list_elem_of_fmap.
Qed.

(** X16.  Logging out does not cancel an upload under way: when the admin
    logs out between the file selection and the reader's result, the record
    is still submitted, the flag is cleared when the write settles, and the
    file input, no longer on the page, is not cleared. *)
Theorem logout_during_upload (app_id token : option string) (file : File.t)
    (rest : list File.t) (result : string) (fulfilled : bool) (s : State) :
  isAdmin s = true ->
  (File.size file <= 700000)%Z ->
  let es := [FileInputChange (file :: rest); HeaderButtonClick;
             ReaderLoad file result; AddDocSettled fulfilled] in
  isAdmin (exec (run app_id token es) s) = false
  /\ uploading (exec (run app_id token es) s) = false
  /\ calls (run app_id token es) s
     = ([ReadAsDataURL file; SetTimeout 3000;
         AddDoc (filesPath app_id)
           {| Fields.name := File.name file; Fields.type := File.type file;
              Fields.size := File.size file; Fields.data := result;
              Fields.createdAt := serverTimestamp |}]
        ++ (if fulfilled then [SetTimeout 3000]
            else [ConsoleError "Upload error"; SetTimeout 3000]))%list.
Proof.
  intros Hadm Hsize es. apply Z.ltb_ge in Hsize. subst es.
  unfold exec, calls, run, step, handleFileUpload. cbn [head]. rewrite Hsize.
  handler. rewrite Hadm. by destruct fulfilled.
Qed.

Lemma logout_during_upload_witness :
  isAdmin listing = true
  /\ (File.size sample_file <= 700000)%Z
  /\ isAdmin (exec (run None None [FileInputChange [sample_file]; HeaderButtonClick;
                                   ReaderLoad sample_file (reader_result sample_file);
                                   AddDocSettled true]) listing) = false.
Proof.
  assert (Hadm : isAdmin listing = true) by reflexivity.
  assert (Hsize : (File.size sample_file <= 700000)%Z) by (by vm_compute).
  split; [exact Hadm|]. split; [exact Hsize|].
  exact (proj1 (logout_during_upload None None sample_file []
                  (reader_result sample_file) true listing Hadm Hsize)).
Defined.
